(** * Event-driven replay simulator and time-triggered straddle strategy

    A shallow embedding of [src/simulator.py] (class [Simulator]) and
    [src/Strategy.py] (class [Strategy]), with the properties of the
    simulation core stated and proved over it.

    Modelling conventions.
    - Python numbers ([int] and [float]) are exact rationals [Q]: binary64
      rounding, infinities and NaN are not modelled.  [x / 0] raises
      [ZeroDivisionError] as in Python.
    - The four dictionaries of the simulator are finite maps.  Their keys
      are Python values that are either a string or [None]
      ([Strategy.call_strike] starts as [None]), hence [option string].
    - The two objects reference each other ([Simulator.strategy],
      [Strategy.simulator]); the model nests the strategy's fields in the
      simulator's state and threads that single state through every call.
    - Exceptions are the left summand of [result]; a raised exception aborts
      the run, as no handler exists in the source.
    - The [[TRADE]] lines that [onOrder] prints are kept as the list
      [trades], the observable record of the orders submitted. *)

From Stdlib Require Import Ascii QArith Qabs Qround Lqa.
From stdpp Require Import gmap strings list sorting pretty.

Local Open Scope Z_scope.

(** ** Exceptions and the error monad *)

Inductive pyerr : Type :=
| ZeroDivisionError
| TypeError
| IndexError
| AttributeError
| KeyError (k : string).

Inductive result (A : Type) : Type :=
| Ok (a : A)
| Raise (e : pyerr).
Arguments Ok {A} a.
Arguments Raise {A} e.

Definition bind {A B : Type} (r : result A) (k : A -> result B) : result B :=
  match r with
  | Ok a => k a
  | Raise e => Raise e
  end.

Notation "x <- r ;; k" := (bind r (fun x => k))
  (at level 100, r at next level, right associativity).

(** ** Numbers *)

(** [round(x)] with one argument: nearest integer, ties to the even one. *)
Definition py_round (x : Q) : Z :=
  let f := Qfloor x in
  match Qcompare (x - inject_Z f) (1 # 2) with
  | Lt => f
  | Gt => f + 1
  | Eq => if Z.even f then f else f + 1
  end.

(** [a / b] on numbers. *)
Definition py_div (a b : Q) : result Q :=
  if Qeq_bool b 0 then Raise ZeroDivisionError else Ok (a / b)%Q.

(** [d.get(k, dflt)] on a dictionary. *)
Definition get (d : gmap (option string) Q) (k : option string) (dflt : Q) : Q :=
  default dflt (d !! k).

(** ** Strings *)

(** [sub in s]. *)
Fixpoint contains (sub s : string) : bool :=
  if String.prefix sub s then true
  else match s with
       | String _ r => contains sub r
       | EmptyString => false
       end.

(** [\d] (symbols are taken to be ASCII). *)
Definition is_digit (c : ascii) : bool :=
  let n := nat_of_ascii c in
  (48 <=? n)%nat && (n <=? 57)%nat.

(** The longest run of digits at the head of [s], and what follows it. *)
Fixpoint span_digits (s : string) : string * string :=
  match s with
  | String c r =>
      if is_digit c
      then let '(d, t) := span_digits r in (String c d, t)
      else (EmptyString, s)
  | EmptyString => (EmptyString, EmptyString)
  end.

Fixpoint strip_prefix (p s : string) : option string :=
  match p, s with
  | EmptyString, _ => Some s
  | String a p', String b s' =>
      if Ascii.eqb a b then strip_prefix p' s' else None
  | String _ _, EmptyString => None
  end.

(** A match of [C-BTC-\d+-(\d+)] anchored at the head of [s]; the result is
    group 1.  Both [\d+] are greedy, and giving digits back never helps: the
    character after a shortened first run is a digit, not [-], and the second
    run is last in the pattern. *)
Definition match_expiry_at (s : string) : option string :=
  match strip_prefix "C-BTC-" s with
  | None => None
  | Some r =>
      let '(strike, r1) := span_digits r in
      match strike, r1 with
      | String _ _, String "-"%char r2 =>
          let '(expiry, _) := span_digits r2 in
          match expiry with
          | String _ _ => Some expiry
          | EmptyString => None
          end
      | _, _ => None
      end
  end.

(** [re.search(r'C-BTC-\d+-(\d+)', sym)] followed by [match.group(1)]:
    the leftmost position at which the pattern matches. *)
Fixpoint re_search_expiry (sym : string) : option string :=
  match match_expiry_at sym with
  | Some e => Some e
  | None =>
      match sym with
      | String _ r => re_search_expiry r
      | EmptyString => None
      end
  end.

(** The order of [str] in Python: lexicographic on code points. *)
Definition str_le (a b : string) : Prop := String.leb a b = true.

#[global] Instance str_le_dec (a b : string) : Decision (str_le a b).
Proof. unfold str_le. apply _. Defined.

(** [sorted(xs)] on a set of strings. *)
Definition sorted (xs : gset string) : list string :=
  merge_sort str_le (elements xs).

(** ** Data *)

(** A row of the frame that [readData] builds. *)
Record Tick : Type := mkTick {
  timestamp : Z;
  close : Q;
  Symbol : string
}.

Record DataFrame : Type := mkFrame {
  columns : list string;
  rows : list Tick
}.

(** The module [config] is imported by both classes and is not part of the
    sources at hand; its attributes are taken as parameters.  [dates] stands
    for [pd.date_range(config.startDate, config.endDate).strftime('%Y%m%d')]. *)
Record Config : Type := mkConfig {
  symbols : list string;
  dates : list string
}.

(** What the run reads from its surroundings: the files under [data/]
    (a path maps to the [timestamp] and [close] columns of its rows when the
    file exists) and the local time zone used by [datetime.fromtimestamp]
    (offset from UTC, in seconds, at a given instant). *)
Record Env : Type := mkEnv {
  files : string -> option (list (Z * Q));
  utcoffset : Z -> Z
}.

Definition hour (env : Env) (time : Z) : Z :=
  ((time + utcoffset env time) / 3600) mod 24.

Definition minute (env : Env) (time : Z) : Z :=
  ((time + utcoffset env time) / 60) mod 60.

(** ** State *)

(** The fields of a [Strategy] object ([self.simulator] is the enclosing
    state). *)
Record Strategy : Type := mkStrategy {
  entry_price : option Q;
  call_strike : option string;
  put_strike : option string;
  in_position : bool;
  pnl : Q
}.

(** One [[TRADE]] line printed by [onOrder]. *)
Record Trade : Type := mkTrade {
  trade_symbol : option string;
  trade_side : string;
  trade_price : Q;
  trade_quantity : Q
}.

(** The fields of a [Simulator] object, and the lines it has printed. *)
Record Simulator : Type := mkSimulator {
  df : option DataFrame;
  currentPrice : gmap (option string) Q;
  strategy : Strategy;
  buyValue : gmap (option string) Q;
  sellValue : gmap (option string) Q;
  currQuantity : gmap (option string) Q;
  pnl_log : list (Z * Q);
  trades : list Trade
}.

(** [Strategy.__init__] *)
Definition Strategy_init : Strategy :=
  {| entry_price := None; call_strike := None; put_strike := None;
     in_position := false; pnl := 0 |}.

(** [Simulator.__init__] *)
Definition Simulator_init : Simulator :=
  {| df := None; currentPrice := ∅; strategy := Strategy_init;
     buyValue := ∅; sellValue := ∅; currQuantity := ∅;
     pnl_log := []; trades := [] |}.

(** Assignments to one attribute. *)
Definition set_entry_price (v : option Q) (s : Strategy) : Strategy :=
  mkStrategy v (call_strike s) (put_strike s) (in_position s) (pnl s).
Definition set_call_strike (v : option string) (s : Strategy) : Strategy :=
  mkStrategy (entry_price s) v (put_strike s) (in_position s) (pnl s).
Definition set_put_strike (v : option string) (s : Strategy) : Strategy :=
  mkStrategy (entry_price s) (call_strike s) v (in_position s) (pnl s).
Definition set_in_position (v : bool) (s : Strategy) : Strategy :=
  mkStrategy (entry_price s) (call_strike s) (put_strike s) v (pnl s).
Definition set_pnl (v : Q) (s : Strategy) : Strategy :=
  mkStrategy (entry_price s) (call_strike s) (put_strike s) (in_position s) v.

Definition set_df (v : option DataFrame) (s : Simulator) : Simulator :=
  mkSimulator v (currentPrice s) (strategy s) (buyValue s) (sellValue s)
    (currQuantity s) (pnl_log s) (trades s).
Definition set_currentPrice (v : gmap (option string) Q) (s : Simulator) : Simulator :=
  mkSimulator (df s) v (strategy s) (buyValue s) (sellValue s)
    (currQuantity s) (pnl_log s) (trades s).
Definition set_strategy (v : Strategy) (s : Simulator) : Simulator :=
  mkSimulator (df s) (currentPrice s) v (buyValue s) (sellValue s)
    (currQuantity s) (pnl_log s) (trades s).
Definition set_buyValue (v : gmap (option string) Q) (s : Simulator) : Simulator :=
  mkSimulator (df s) (currentPrice s) (strategy s) v (sellValue s)
    (currQuantity s) (pnl_log s) (trades s).
Definition set_sellValue (v : gmap (option string) Q) (s : Simulator) : Simulator :=
  mkSimulator (df s) (currentPrice s) (strategy s) (buyValue s) v
    (currQuantity s) (pnl_log s) (trades s).
Definition set_currQuantity (v : gmap (option string) Q) (s : Simulator) : Simulator :=
  mkSimulator (df s) (currentPrice s) (strategy s) (buyValue s) (sellValue s)
    v (pnl_log s) (trades s).
Definition set_pnl_log (v : list (Z * Q)) (s : Simulator) : Simulator :=
  mkSimulator (df s) (currentPrice s) (strategy s) (buyValue s) (sellValue s)
    (currQuantity s) v (trades s).
Definition print_trade (t : Trade) (s : Simulator) : Simulator :=
  mkSimulator (df s) (currentPrice s) (strategy s) (buyValue s) (sellValue s)
    (currQuantity s) (pnl_log s) (trades s ++ [t]).

(** ** The strategy's confirmation callback and the execution engine *)

(** [Strategy.onTradeConfirmation] *)
Definition onTradeConfirmation (self : Strategy) (symbol : option string)
    (side : string) (quantity price : Q) : Strategy :=
  let value := (quantity * price)%Q in
  if decide (side = "buy")
  then set_pnl (pnl self - value)%Q self
  else set_pnl (pnl self + value)%Q self.

(** [Simulator.onOrder] *)
Definition onOrder (self : Simulator) (symbol : option string)
    (side : string) (quantity price : Q) : Simulator :=
  let slippage := (1 # 10000)%Q in
  let '(trade_price, self) :=
    if decide (side = "buy") then
      let trade_price := (price * (1 + slippage))%Q in
      let self := set_currQuantity
        (<[symbol := (get (currQuantity self) symbol 0 + quantity)%Q]>
           (currQuantity self)) self in
      let self := set_buyValue
        (<[symbol := (get (buyValue self) symbol 0 + trade_price * quantity)%Q]>
           (buyValue self)) self in
      (trade_price, self)
    else
      let trade_price := (price * (1 - slippage))%Q in
      let self := set_currQuantity
        (<[symbol := (get (currQuantity self) symbol 0 - quantity)%Q]>
           (currQuantity self)) self in
      let self := set_sellValue
        (<[symbol := (get (sellValue self) symbol 0 + trade_price * quantity)%Q]>
           (sellValue self)) self in
      (trade_price, self) in
  let self := print_trade (mkTrade symbol side trade_price quantity) self in
  set_strategy
    (onTradeConfirmation (strategy self) symbol side quantity trade_price) self.

(** ** The strategy's market-data callback *)

(** Line 27: [round(price / 1000) * 1000]. *)
Definition atm_strike (price : Q) : Z := py_round (price / 1000) * 1000.

(** The set [expiries] that [onMarketData] collects from [config.symbols]. *)
Definition expiries (config : Config) : gset string :=
  list_to_set (omap re_search_expiry (symbols config)).

(** How the first [if] of [onMarketData] is left: through its [return], or
    by reaching the second [if]. *)
Inductive flow : Type :=
| Return (self : Simulator)
| Next (self : Simulator).

(** Lines 22-53: the entry block. *)
Definition entry_block (env : Env) (config : Config) (self : Simulator)
    (row : Tick) : result flow :=
  let time := timestamp row in
  let symbol := Symbol row in
  let price := close row in
  if negb (in_position (strategy self)) && contains "BTCUSDT" symbol then
    if (hour env time =? 13) && (minute env time =? 0) then
      let self := set_strategy (set_entry_price (Some price) (strategy self)) self in
      let atm_strike := atm_strike price in
      if decide (expiries config = ∅) then Ok (Return self)
      else
        match sorted (expiries config) with
        | [] => Raise IndexError
        | expiry :: _ =>
            let self := set_strategy
              (set_call_strike
                 (Some ("C-BTC-" +:+ pretty atm_strike +:+ "-" +:+ expiry))
                 (strategy self)) self in
            let self := set_strategy
              (set_put_strike
                 (Some ("P-BTC-" +:+ pretty atm_strike +:+ "-" +:+ expiry))
                 (strategy self)) self in
            if bool_decide (call_strike (strategy self) ∈ Some <$> symbols config)
               && bool_decide (put_strike (strategy self) ∈ Some <$> symbols config)
            then
              let self := onOrder self (call_strike (strategy self)) "sell" (1 # 10)
                (get (currentPrice self) (call_strike (strategy self)) price) in
              let self := onOrder self (put_strike (strategy self)) "sell" (1 # 10)
                (get (currentPrice self) (put_strike (strategy self)) price) in
              Ok (Next (set_strategy (set_in_position true (strategy self)) self))
            else Ok (Next self)
        end
    else Ok (Next self)
  else Ok (Next self).

(** The condition of line 57.  [self.entry_price] is [None] until the first
    trigger tick; subtracting it from a number raises [TypeError]. *)
Definition exit_condition (self : Simulator) : result bool :=
  let fut_price := get (currentPrice self) (Some "BTCUSDT") 0 in
  match entry_price (strategy self) with
  | None => Raise TypeError
  | Some entry =>
      move <- py_div (Qabs (fut_price - entry)) entry ;;
      Ok (negb (Qle_bool move (1 # 100))
          || Qle_bool 500 (pnl (strategy self))
          || Qle_bool (pnl (strategy self)) (-500))
  end.

(** Lines 55-61: the exit block. *)
Definition exit_block (self : Simulator) (row : Tick) : result Simulator :=
  let price := close row in
  if in_position (strategy self) then
    leave <- exit_condition self ;;
    if (leave : bool) then
      let self := onOrder self (call_strike (strategy self)) "buy" (1 # 10)
        (get (currentPrice self) (call_strike (strategy self)) price) in
      let self := onOrder self (put_strike (strategy self)) "buy" (1 # 10)
        (get (currentPrice self) (put_strike (strategy self)) price) in
      Ok (set_strategy (set_in_position false (strategy self)) self)
    else Ok self
  else Ok self.

(** [Strategy.onMarketData] *)
Definition onMarketData (env : Env) (config : Config) (self : Simulator)
    (row : Tick) : result Simulator :=
  f <- entry_block env config self row ;;
  match f with
  | Return self => Ok self
  | Next self => exit_block self row
  end.

(** ** The simulator *)

(** [os.path.join(os.path.join('data', date), f"MARK:{symbol}.csv")] *)
Definition file_path (date symbol : string) : string :=
  "data/" +:+ date +:+ "/MARK:" +:+ symbol +:+ ".csv".

(** Lines 21-25: the frames that one (date, symbol) pair appends to
    [data_frames]; [pd.read_csv] followed by the assignment of the
    [Symbol] column. *)
Definition load (env : Env) (date symbol : string) : list DataFrame :=
  match files env (file_path date symbol) with
  | Some rs =>
      [mkFrame ["timestamp"; "close"; "Symbol"]
         ((fun r : Z * Q => mkTick r.1 r.2 symbol) <$> rs)]
  | None => []
  end.

(** [pd.concat]: the rows of all frames, over the union of their columns. *)
Definition pd_concat (frames : list DataFrame) : DataFrame :=
  mkFrame (remove_dups (mjoin (columns <$> frames))) (mjoin (rows <$> frames)).

Definition ts_le (a b : Tick) : Prop := timestamp a <= timestamp b.

#[global] Instance ts_le_dec (a b : Tick) : Decision (ts_le a b).
Proof. unfold ts_le. apply _. Defined.

(** [df.sort_values(by="timestamp")]: [KeyError] when the frame has no such
    column, otherwise its rows in ascending order of [timestamp].  (pandas
    does not promise how rows with equal keys are ordered; the model keeps
    their order.) *)
Definition sort_values_timestamp (d : DataFrame) : result DataFrame :=
  if decide ("timestamp" ∈ columns d)
  then Ok (mkFrame (columns d) (merge_sort ts_le (rows d)))
  else Raise (KeyError "timestamp").

(** Lines 15-25: the list [data_frames] at the end of the two loops. *)
Definition data_frames (env : Env) (config : Config) : list DataFrame :=
  date ← dates config; symbol ← symbols config; load env date symbol.

(** [Simulator.readData] *)
Definition readData (env : Env) (config : Config) (self : Simulator)
    : result Simulator :=
  let data_frames := data_frames env config in
  let d := match data_frames with
           | [] => mkFrame [] []
           | _ :: _ => pd_concat data_frames
           end in
  d <- sort_values_timestamp d ;;
  Ok (set_df (Some d) self).

(** The expression of lines 42 and 66 for the ledger entry under key [sym],
    marked at [last_price]. *)
Definition mark_to_market (self : Simulator) (sym : option string)
    (last_price : Q) : Q :=
  let buy := get (buyValue self) sym 0 in
  let sell := get (sellValue self) sym 0 in
  let qty := get (currQuantity self) sym 0 in
  (sell - buy + qty * last_price)%Q.

(** Lines 38-42: the mark-to-market PnL of one symbol. *)
Definition symbol_pnl (self : Simulator) (sym : string) : Q :=
  let last_price := get (currentPrice self) (Some sym) 0 in
  mark_to_market self (Some sym) last_price.

(** Lines 36-42: the loop over [config.symbols]. *)
Definition total_pnl (config : Config) (self : Simulator) : Q :=
  fold_left (fun acc sym => (acc + symbol_pnl self sym)%Q) (symbols config) 0%Q.

(** Lines 32-43: the body of the replay loop. *)
Definition on_row (env : Env) (config : Config) (self : Simulator)
    (row : Tick) : result Simulator :=
  let symbol := Symbol row in
  let price := close row in
  let self := set_currentPrice (<[Some symbol := price]> (currentPrice self)) self in
  self <- onMarketData env config self row ;;
  Ok (set_pnl_log (pnl_log self ++ [(timestamp row, total_pnl config self)]) self).

(** Line 31: the loop over the rows. *)
Fixpoint replay (env : Env) (config : Config) (self : Simulator)
    (ticks : list Tick) : result Simulator :=
  match ticks with
  | [] => Ok self
  | row :: rest =>
      self <- on_row env config self row ;;
      replay env config self rest
  end.

(** [Simulator.startSimulation]; the second component is the content of
    [output/timestamped_pnl.csv], written once the loop is over. *)
Definition startSimulation (env : Env) (config : Config) (self : Simulator)
    : result (Simulator * list (Z * Q)) :=
  match df self with
  | None => Raise AttributeError
  | Some d =>
      self <- replay env config self (rows d) ;;
      Ok (self, pnl_log self)
  end.

(** The script: a fresh [Simulator], [readData], [startSimulation]
    ([printPnL] only prints). *)
Definition main (env : Env) (config : Config) : result (Simulator * list (Z * Q)) :=
  let sim := Simulator_init in
  sim <- readData env config sim ;;
  startSimulation env config sim.

(** * Statements

    Definitions used to state the properties: requests and fills, the
    quantities that the specification names, predicates on states, and
    example inputs. *)

(** ** Orders and fills *)

(** The value of the local [trade_price] of [onOrder]. *)
Definition executed_price (side : string) (price : Q) : Q :=
  if decide (side = "buy")
  then (price * (1 + (1 # 10000)))%Q
  else (price * (1 - (1 # 10000)))%Q.

(** An order request, and a sequence of them sent to [onOrder]. *)
Record Order : Type := mkOrder {
  order_symbol : option string;
  order_side : string;
  order_quantity : Q;
  order_price : Q
}.

Definition submit (self : Simulator) (o : Order) : Simulator :=
  onOrder self (order_symbol o) (order_side o) (order_quantity o) (order_price o).

Definition submit_all (self : Simulator) (orders : list Order) : Simulator :=
  fold_left submit orders self.

Definition buy_or_sell (o : Order) : Prop :=
  order_side o = "buy" \/ order_side o = "sell".

(** The fill of an order respects the direction of slippage: a buy is not
    executed below its reference price, a sell not above it. *)
Definition fill_respects_direction (self : Simulator) (symbol : option string)
    (side : string) (quantity price : Q) : Prop :=
  forall t, last (trades (onOrder self symbol side quantity price)) = Some t ->
    (side = "buy" -> (price <= trade_price t)%Q) /\
    (side = "sell" -> (trade_price t <= price)%Q).

(** Executed and reference price coincide only under a zero slippage rate;
    the rate of [onOrder] is the constant [0.0001]. *)
Definition equality_only_without_slippage (self : Simulator)
    (symbol : option string) (side : string) (quantity price : Q) : Prop :=
  forall t, last (trades (onOrder self symbol side quantity price)) = Some t ->
    (trade_price t == price)%Q -> (1 # 10000 == 0)%Q.

(** Neither [buyValue] nor [sellValue] is lower in [self'] than in [self],
    for any key (a missing key reads as 0, as in the source). *)
Definition accumulators_not_reduced (self self' : Simulator) : Prop :=
  forall k,
    (get (buyValue self) k 0 <= get (buyValue self') k 0)%Q /\
    (get (sellValue self) k 0 <= get (sellValue self') k 0)%Q.

(** Following the specification: the signed cash flow of one fill of
    quantity [q] executed at [e], its quantity marked at [p].  A sell brings
    in [e * q] and leaves [q] short; a buy pays [e * q] and leaves [q] long. *)
Definition signed_cash_flow (p : Q) (fill : Trade) : Q :=
  let e := trade_price fill in
  let q := trade_quantity fill in
  if decide (trade_side fill = "sell") then (e * q - q * p)%Q
  else if decide (trade_side fill = "buy") then (q * p - e * q)%Q
  else 0%Q.

(** Following the specification: the sum of the signed cash flows of the
    fills of [sym]. *)
Definition cash_flow_sum (p : Q) (sym : option string) (fills : list Trade) : Q :=
  foldr (fun fill acc =>
           if decide (trade_symbol fill = sym)
           then (signed_cash_flow p fill + acc)%Q else acc) 0%Q fills.

(** The ledger agrees with the cash flows of the fills, for every key and
    every marking price. *)
Definition ledger_conserved (self : Simulator) : Prop :=
  forall sym p,
    (mark_to_market self sym p == cash_flow_sum p sym (trades self))%Q.

(** Following the specification: the cash flow of a list of fills, sell
    notional counted positive and buy notional negative. *)
Definition realized (fills : list Trade) : Q :=
  foldr (fun fill acc =>
           if decide (trade_side fill = "buy")
           then (acc - trade_quantity fill * trade_price fill)%Q
           else (acc + trade_quantity fill * trade_price fill)%Q) 0%Q fills.

(** The strategy's [pnl] is the cash flow of all fills so far. *)
Definition pnl_is_realized (self : Simulator) : Prop :=
  (pnl (strategy self) == realized (trades self))%Q.

(** ** States of the strategy *)

(** Following the specification: the exit rule for a position entered at
    [entry], with threshold 0.01, profit target 500 and loss limit 500. *)
Definition exit_rule (self : Simulator) (entry : Q) : Prop :=
  let currentTriggerPrice := get (currentPrice self) (Some "BTCUSDT") 0 in
  let realizedPnL := pnl (strategy self) in
  (1 # 100 < Qabs (currentTriggerPrice - entry) / entry)%Q \/
  (500 <= realizedPnL)%Q \/
  (realizedPnL <= -500)%Q.

(** Two buy orders of 0.1 were submitted between [self] and [self'], on the
    call leg and on the put leg, and nothing else. *)
Definition closes_both_legs (self self' : Simulator) : Prop :=
  exists t1 t2,
    trades self' = trades self ++ [t1; t2] /\
    trade_side t1 = "buy" /\ trade_side t2 = "buy" /\
    trade_symbol t1 = call_strike (strategy self) /\
    trade_symbol t2 = put_strike (strategy self) /\
    trade_quantity t1 = (1 # 10)%Q /\ trade_quantity t2 = (1 # 10)%Q.

(** The identifiers that line 41 and line 42 derive. *)
Definition call_identifier (price : Q) (expiry : string) : string :=
  "C-BTC-" +:+ pretty (atm_strike price) +:+ "-" +:+ expiry.
Definition put_identifier (price : Q) (expiry : string) : string :=
  "P-BTC-" +:+ pretty (atm_strike price) +:+ "-" +:+ expiry.

(** The ledger and the record of orders are the same in both states, and
    the strategy is flat in the second. *)
Definition no_order_and_flat (self self' : Simulator) : Prop :=
  trades self' = trades self /\
  buyValue self' = buyValue self /\
  sellValue self' = sellValue self /\
  currQuantity self' = currQuantity self /\
  in_position (strategy self') = false.

Definition flow_state (f : flow) : Simulator :=
  match f with
  | Return self => self
  | Next self => self
  end.

(** [evolves self self']: [self'] is reached from [self] by calls of
    [onOrder] with side [buy] or [sell] and by assignments to attributes of
    the strategy other than [pnl]. *)
Inductive evolves (self : Simulator) : Simulator -> Prop :=
| evolves_refl : evolves self self
| evolves_order self' symbol side quantity price :
    evolves self self' ->
    side = "buy" \/ side = "sell" ->
    evolves self (onOrder self' symbol side quantity price)
| evolves_assign self' st :
    evolves self self' ->
    pnl st = pnl (strategy self') ->
    evolves self (set_strategy st self').

(** A position is held only with a recorded entry price that is not zero. *)
Definition entry_price_usable (self : Simulator) : Prop :=
  in_position (strategy self) = true ->
  exists entry, entry_price (strategy self) = Some entry /\ ~ (entry == 0)%Q.

(** ** The feed *)

(** The ticks read from the files, in the order of [pd.concat]. *)
Definition feed (env : Env) (config : Config) : list Tick :=
  mjoin (rows <$> data_frames env config).

(** The ticks in the order in which [startSimulation] visits them. *)
Definition sorted_feed (env : Env) (config : Config) : list Tick :=
  merge_sort ts_le (feed env config).

(** ** Example inputs *)

Definition example_config : Config :=
  mkConfig ["BTCUSDT"; "C-BTC-50000-240101"; "P-BTC-50000-240101";
            "C-BTC-50000-240201"; "P-BTC-50000-240201"]
           ["20240101"].

Definition example_config_without_strike : Config :=
  mkConfig ["BTCUSDT"; "C-BTC-51000-240101"; "P-BTC-51000-240101"]
           ["20240101"].

(** No file under [data/]; local time is UTC. *)
Definition example_env : Env := mkEnv (fun _ => None) (fun _ => 0).

(** One file, for [BTCUSDT] on 2024-01-01, with two rows out of order. *)
Definition example_env_with_data : Env :=
  mkEnv (fun path =>
           if decide (path = "data/20240101/MARK:BTCUSDT.csv")
           then Some [(1704114060, 50100%Q); (1704114000, 50050%Q)]
           else None)
        (fun _ => 0).

(** As [example_env_with_data], with one more file that the configuration
    does not ask for. *)
Definition example_env_with_more_data : Env :=
  mkEnv (fun path =>
           if decide (path = "data/20231231/MARK:BTCUSDT.csv")
           then Some [(1704027600, 42000%Q)]
           else files example_env_with_data path)
        (fun _ => 0).

(** A short straddle entered at 50000, with the trigger now at 50600. *)
Definition example_in_position : Simulator :=
  {| df := None;
     currentPrice := {[ Some "BTCUSDT" := 50600%Q ]};
     strategy := {| entry_price := Some 50000%Q;
                    call_strike := Some "C-BTC-50000-240101";
                    put_strike := Some "P-BTC-50000-240101";
                    in_position := true;
                    pnl := 100 |};
     buyValue := ∅; sellValue := ∅; currQuantity := ∅;
     pnl_log := []; trades := [] |}.

(** The state in which [startSimulation] calls [onMarketData] for a first
    row [BTCUSDT] at 50050. *)
Definition example_first_tick : Simulator :=
  set_currentPrice {[ Some "BTCUSDT" := 50050%Q ]} Simulator_init.

(** * Properties *)

(** ** The execution engine *)

Lemma get_insert (d : gmap (option string) Q) (k k' : option string) (v dflt : Q) :
  get (<[k := v]> d) k' dflt = if decide (k = k') then v else get d k' dflt.
Proof. unfold get. rewrite lookup_insert. by case_decide. Qed.

Lemma onOrder_trades self symbol side quantity price :
  trades (onOrder self symbol side quantity price) =
  trades self ++ [mkTrade symbol side (executed_price side price) quantity].
Proof. unfold onOrder, executed_price. by case_decide. Qed.

Lemma onOrder_currentPrice self symbol side quantity price :
  currentPrice (onOrder self symbol side quantity price) = currentPrice self.
Proof. unfold onOrder. by case_decide. Qed.

Lemma onOrder_pnl_log self symbol side quantity price :
  pnl_log (onOrder self symbol side quantity price) = pnl_log self.
Proof. unfold onOrder. by case_decide. Qed.

Lemma onOrder_df self symbol side quantity price :
  df (onOrder self symbol side quantity price) = df self.
Proof. unfold onOrder. by case_decide. Qed.

Lemma onOrder_strategy self symbol side quantity price :
  strategy (onOrder self symbol side quantity price) =
  onTradeConfirmation (strategy self) symbol side quantity
    (executed_price side price).
Proof. unfold onOrder, executed_price. by case_decide. Qed.

Lemma onOrder_buyValue self symbol side quantity price k :
  get (buyValue (onOrder self symbol side quantity price)) k 0 =
  if decide (side = "buy" /\ symbol = k)
  then (get (buyValue self) k 0 + executed_price side price * quantity)%Q
  else get (buyValue self) k 0.
Proof.
  unfold onOrder, executed_price.
  destruct (decide (side = "buy")) as [Hs|Hs]; simpl.
  - rewrite get_insert. repeat case_decide; intuition congruence.
  - case_decide; intuition congruence.
Qed.

Lemma onOrder_sellValue self symbol side quantity price k :
  get (sellValue (onOrder self symbol side quantity price)) k 0 =
  if decide (side <> "buy" /\ symbol = k)
  then (get (sellValue self) k 0 + executed_price side price * quantity)%Q
  else get (sellValue self) k 0.
Proof.
  unfold onOrder, executed_price.
  destruct (decide (side = "buy")) as [Hs|Hs]; simpl.
  - case_decide; intuition congruence.
  - rewrite get_insert. repeat case_decide; intuition congruence.
Qed.

Lemma onOrder_currQuantity self symbol side quantity price k :
  get (currQuantity (onOrder self symbol side quantity price)) k 0 =
  if decide (symbol = k)
  then if decide (side = "buy")
       then (get (currQuantity self) k 0 + quantity)%Q
       else (get (currQuantity self) k 0 - quantity)%Q
  else get (currQuantity self) k 0.
Proof.
  unfold onOrder.
  destruct (decide (side = "buy")) as [Hs|Hs]; simpl;
    rewrite get_insert; repeat case_decide; intuition congruence.
Qed.

Lemma onTradeConfirmation_frame self symbol side quantity price :
  let self' := onTradeConfirmation self symbol side quantity price in
  entry_price self' = entry_price self /\
  call_strike self' = call_strike self /\
  put_strike self' = put_strike self /\
  in_position self' = in_position self.
Proof. unfold onTradeConfirmation. by case_decide. Qed.

Lemma onTradeConfirmation_pnl self symbol side quantity price :
  pnl (onTradeConfirmation self symbol side quantity price) =
  if decide (side = "buy")
  then (pnl self - quantity * price)%Q
  else (pnl self + quantity * price)%Q.
Proof. unfold onTradeConfirmation. by case_decide. Qed.

Lemma submit_all_app self os1 os2 :
  submit_all self (os1 ++ os2) = submit_all (submit_all self os1) os2.
Proof. apply fold_left_app. Qed.

(** *** Slippage direction *)

(** A buy at the reference price -100 is executed at -100.01, below the
    reference; a buy at the reference price 0 is executed at 0. *)
Lemma slippage_direction_fails_below_zero :
  ~ fill_respects_direction Simulator_init (Some "C-BTC-50000-240101") "buy"
      (1 # 10) (-100) /\
  ~ equality_only_without_slippage Simulator_init (Some "C-BTC-50000-240101")
      "buy" (1 # 10) 0.
Proof.
  split.
  - intros H. destruct (H _ eq_refl) as [Hb _].
    specialize (Hb eq_refl). vm_compute in Hb. by apply Hb.
  - intros H. specialize (H _ eq_refl). discriminate H. reflexivity.
Qed.

(** C6 (amended).  For a reference price that is not negative, a buy is
    executed at or above the reference price, any other side (a sell) at or
    below it, and the two prices coincide exactly when the reference price
    is zero. *)
Theorem slippage_direction self symbol side quantity price :
  (0 <= price)%Q ->
  exists t,
    trades (onOrder self symbol side quantity price) = trades self ++ [t] /\
    trade_symbol t = symbol /\ trade_side t = side /\
    trade_quantity t = quantity /\
    (side = "buy" -> (price <= trade_price t)%Q) /\
    (side <> "buy" -> (trade_price t <= price)%Q) /\
    ((trade_price t == price)%Q <-> (price == 0)%Q).
Proof.
  intros Hp. eexists. split; [apply onOrder_trades|]. simpl.
  unfold executed_price. repeat split; try case_decide; try done; intros; lra.
Qed.

Lemma slippage_direction_witness :
  exists t,
    trades (onOrder Simulator_init (Some "P-BTC-50000-240101") "sell" (1 # 10) 1200)
    = [t] /\ (trade_price t <= 1200)%Q /\ ~ (trade_price t == 1200)%Q.
Proof.
  destruct (slippage_direction Simulator_init (Some "P-BTC-50000-240101")
              "sell" (1 # 10) 1200) as (t & Ht & _ & _ & _ & _ & Hs & He).
  - vm_compute. discriminate.
  - exists t. split; [exact Ht|]. split; [by apply Hs|].
    intros E. apply He in E. vm_compute in E. discriminate.
Defined.

(** *** Monotone accumulators *)

(** A buy of quantity -1 at the reference price 100 takes [buyValue] of the
    symbol from 0 to -100.01. *)
Lemma negative_quantity_reduces_buyValue :
  ~ accumulators_not_reduced Simulator_init
      (onOrder Simulator_init (Some "BTCUSDT") "buy" (-1) 100).
Proof.
  intros H. destruct (H (Some "BTCUSDT")) as [Hb _].
  vm_compute in Hb. by apply Hb.
Qed.

Lemma onOrder_not_reduced self symbol side quantity price :
  (0 <= quantity * price)%Q ->
  accumulators_not_reduced self (onOrder self symbol side quantity price).
Proof.
  intros Hqp k. rewrite onOrder_buyValue, onOrder_sellValue.
  unfold executed_price.
  split; repeat case_decide; try lra; try (intuition congruence); nra.
Qed.

#[global] Instance accumulators_not_reduced_refl : Reflexive accumulators_not_reduced.
Proof. intros s k. split; lra. Qed.

#[global] Instance accumulators_not_reduced_trans : Transitive accumulators_not_reduced.
Proof.
  intros s1 s2 s3 H12 H23 k.
  destruct (H12 k), (H23 k). split; lra.
Qed.

Lemma submit_all_not_reduced orders : forall self,
  Forall (fun o => (0 <= order_quantity o * order_price o)%Q) orders ->
  accumulators_not_reduced self (submit_all self orders).
Proof.
  induction orders as [|o orders IH]; intros self Hall; [reflexivity|].
  inversion_clear Hall as [|? ? Ho Hrest]. simpl.
  transitivity (submit self o); [by apply onOrder_not_reduced | by apply IH].
Qed.

(** C7 (amended).  When every order of a sequence has a notional
    [quantity * price] that is not negative, [buyValue] and [sellValue] of
    every symbol never decrease along the sequence: the state after any
    [n] orders is below the state after any [m >= n] orders. *)
Theorem accumulators_monotone self orders (n m : nat) :
  Forall (fun o => (0 <= order_quantity o * order_price o)%Q) orders ->
  (n <= m)%nat ->
  accumulators_not_reduced (submit_all self (take n orders))
                           (submit_all self (take m orders)).
Proof.
  intros Hall Hnm.
  replace m with (n + (m - n))%nat by lia.
  rewrite <- take_take_drop.
  rewrite submit_all_app. apply submit_all_not_reduced.
  apply Forall_take, Forall_drop, Hall.
Qed.

Lemma accumulators_monotone_witness :
  let orders := [mkOrder (Some "C-BTC-50000-240101") "sell" (1 # 10) 1200;
                 mkOrder (Some "C-BTC-50000-240101") "buy" (1 # 10) 1100] in
  accumulators_not_reduced (submit_all Simulator_init (take 1 orders))
                           (submit_all Simulator_init (take 2 orders)).
Proof.
  apply accumulators_monotone; [|lia].
  repeat constructor; vm_compute; discriminate.
Defined.

(** *** Ledger conservation *)

Lemma cash_flow_sum_app p sym fills1 fills2 :
  (cash_flow_sum p sym (fills1 ++ fills2) ==
   cash_flow_sum p sym fills1 + cash_flow_sum p sym fills2)%Q.
Proof.
  induction fills1 as [|t fills1 IH]; simpl; [lra|].
  case_decide; lra.
Qed.

Lemma submit_conserves self o sym p :
  buy_or_sell o ->
  (mark_to_market self sym p == cash_flow_sum p sym (trades self))%Q ->
  (mark_to_market (submit self o) sym p ==
   cash_flow_sum p sym (trades (submit self o)))%Q.
Proof.
  unfold submit, mark_to_market. intros Hside IH.
  rewrite onOrder_buyValue, onOrder_sellValue, onOrder_currQuantity,
    onOrder_trades, cash_flow_sum_app.
  simpl. unfold signed_cash_flow. simpl.
  destruct Hside as [-> | ->]; repeat case_decide;
    try done; try (exfalso; intuition congruence); lra.
Qed.



(** ** The strategy *)

(** *** Exit rule *)

Lemma Qle_bool_false (x y : Q) : Qle_bool x y = false <-> (y < x)%Q.
Proof.
  split; intros H.
  - apply Qnot_le_lt. intros Hle. apply Qle_bool_iff in Hle. congruence.
  - destruct (Qle_bool x y) eqn:E; [|done].
    apply Qle_bool_iff in E. lra.
Qed.

Lemma exit_condition_spec self entry :
  entry_price (strategy self) = Some entry ->
  ~ (entry == 0)%Q ->
  exists leave, exit_condition self = Ok leave /\
    (leave = true <-> exit_rule self entry).
Proof.
  intros He Hnz. unfold exit_condition, py_div. rewrite He.
  destruct (Qeq_bool entry 0) eqn:E; [by apply Qeq_bool_iff in E|].
  simpl. eexists. split; [reflexivity|].
  unfold exit_rule.
  rewrite !orb_true_iff, negb_true_iff, Qle_bool_false, !Qle_bool_iff.
  tauto.
Qed.

Lemma exit_block_leaves self row :
  in_position (strategy self) = true ->
  exit_condition self = Ok true ->
  exists self', exit_block self row = Ok self' /\
    closes_both_legs self self' /\ in_position (strategy self') = false.
Proof.
  intros Hin Hc. unfold exit_block. rewrite Hin, Hc. simpl.
  eexists. split; [reflexivity|]. split; [|done].
  do 2 eexists. simpl. rewrite <- app_assoc. simpl.
  repeat split; reflexivity.
Qed.

Lemma exit_block_stays self row :
  in_position (strategy self) = true ->
  exit_condition self = Ok false ->
  exit_block self row = Ok self.
Proof. intros Hin Hc. unfold exit_block. by rewrite Hin, Hc. Qed.

Lemma entry_block_in_position env config self row :
  in_position (strategy self) = true ->
  entry_block env config self row = Ok (Next self).
Proof. intros Hin. unfold entry_block. by rewrite Hin. Qed.



(** *** What a market-data callback can do to the state *)

Lemma evolves_trans s1 s2 s3 : evolves s1 s2 -> evolves s2 s3 -> evolves s1 s3.
Proof.
  intros H12 H23. induction H23.
  - done.
  - by apply evolves_order.
  - by apply evolves_assign.
Qed.

Ltac evolves_steps :=
  repeat first
    [ apply evolves_refl
    | apply evolves_order; [|(by left) || (by right)]
    | apply evolves_assign; [|reflexivity] ].

Lemma entry_block_evolves env config self row f :
  entry_block env config self row = Ok f -> evolves self (flow_state f).
Proof.
  unfold entry_block. intros H.
  repeat (case_match; simplify_eq); simpl; evolves_steps.
Qed.

Lemma exit_block_evolves self row self' :
  exit_block self row = Ok self' -> evolves self self'.
Proof.
  unfold exit_block. intros H.
  destruct (in_position (strategy self)); [|simplify_eq; apply evolves_refl].
  destruct (exit_condition self) as [[]|]; simpl in H; simplify_eq;
    evolves_steps.
Qed.

Lemma onMarketData_evolves env config self row self' :
  onMarketData env config self row = Ok self' -> evolves self self'.
Proof.
  unfold onMarketData. intros H.
  destruct (entry_block env config self row) as [f|] eqn:E; [|done].
  apply entry_block_evolves in E. simpl in H.
  destruct f; simplify_eq; [done|].
  eapply evolves_trans; [exact E|]. by eapply exit_block_evolves.
Qed.

Lemma evolves_frame self self' :
  evolves self self' ->
  pnl_log self' = pnl_log self /\
  currentPrice self' = currentPrice self /\
  df self' = df self.
Proof.
  induction 1 as [|s' symbol side quantity price _ IH _|s' st _ IH _].
  - done.
  - by rewrite onOrder_pnl_log, onOrder_currentPrice, onOrder_df.
  - done.
Qed.

Lemma realized_app fills1 fills2 :
  (realized (fills1 ++ fills2) == realized fills1 + realized fills2)%Q.
Proof.
  induction fills1 as [|t fills1 IH]; simpl; [lra|].
  case_decide; lra.
Qed.

Lemma evolves_pnl self self' :
  evolves self self' ->
  exists fills,
    trades self' = trades self ++ fills /\
    (pnl (strategy self') == pnl (strategy self) + realized fills)%Q.
Proof.
  induction 1 as [|s' symbol side quantity price _ IH _|s' st _ IH Hst].
  - exists []. rewrite app_nil_r. split; [done|]. simpl. lra.
  - destruct IH as (fills & Ht & Hp).
    exists (fills ++ [mkTrade symbol side (executed_price side price) quantity]).
    rewrite onOrder_trades, Ht, app_assoc. split; [done|].
    rewrite onOrder_strategy, onTradeConfirmation_pnl, realized_app. simpl.
    case_decide; lra.
  - destruct IH as (fills & Ht & Hp). exists fills. simpl. by rewrite Hst.
Qed.

Lemma evolves_ledger self self' :
  evolves self self' -> ledger_conserved self -> ledger_conserved self'.
Proof.
  induction 1 as [|s' symbol side quantity price _ IH Hside|s' st _ IH _];
    intros Hl.
  - done.
  - intros sym p.
    apply (submit_conserves s' (mkOrder symbol side quantity price));
      [exact Hside | by apply IH].
  - intros sym p. by apply IH.
Qed.

(** *** Entry gating *)

Lemma sorted_nil (xs : gset string) : sorted xs = [] -> xs = ∅.
Proof.
  unfold sorted. intros H.
  pose proof (merge_sort_Permutation str_le (elements xs)) as Hp.
  rewrite H in Hp. apply Permutation_nil_l in Hp.
  symmetry in Hp. by apply elements_empty_inv, leibniz_equiv in Hp.
Qed.

Lemma elem_of_Some_fmap (x : string) (l : list string) :
  Some x ∈ Some <$> l <-> x ∈ l.
Proof.
  rewrite list_elem_of_fmap. split.
  - intros (y & Hy & Hin). by simplify_eq.
  - intros Hin. by exists x.
Qed.

Lemma exit_block_flat self row :
  in_position (strategy self) = false -> exit_block self row = Ok self.
Proof. intros H. unfold exit_block. by rewrite H. Qed.



(** *** Entry and exit within one callback *)

Lemma sorted_empty : sorted ∅ = [].
Proof. unfold sorted. by rewrite elements_empty. Qed.

#[local] Arguments call_identifier : simpl never.
#[local] Arguments put_identifier : simpl never.



(** *** The strategy's own PnL *)

Lemma on_row_inv env config self row self' :
  on_row env config self row = Ok self' ->
  exists self2,
    onMarketData env config
      (set_currentPrice (<[Some (Symbol row) := close row]> (currentPrice self)) self)
      row = Ok self2 /\
    self' = set_pnl_log
      (pnl_log self2 ++ [(timestamp row, total_pnl config self2)]) self2.
Proof.
  unfold on_row. intros H.
  destruct (onMarketData _ _ _ _) as [self2|]; simplify_eq/=. by exists self2.
Qed.

Lemma replay_invariant (P : Simulator -> Prop) env config :
  (forall self row self', P self -> on_row env config self row = Ok self' -> P self') ->
  forall ticks self self',
    P self -> replay env config self ticks = Ok self' -> P self'.
Proof.
  intros Hstep. induction ticks as [|row ticks IH]; intros self self' HP Hrun.
  - by simplify_eq/=.
  - simpl in Hrun.
    destruct (on_row env config self row) as [self1|] eqn:E; [|done].
    simpl in Hrun. eapply IH; [|exact Hrun]. by eapply Hstep.
Qed.

Lemma on_row_pnl_is_realized env config self row self' :
  pnl_is_realized self -> on_row env config self row = Ok self' ->
  pnl_is_realized self'.
Proof.
  unfold pnl_is_realized. intros HP Hrow.
  apply on_row_inv in Hrow as (self2 & Hmd & ->).
  apply onMarketData_evolves, evolves_pnl in Hmd as (fills & Ht & Hp).
  simpl in *. rewrite Hp, Ht, realized_app, HP. reflexivity.
Qed.

(** C10.  A call of [onMarketData] changes the strategy's [pnl] by the cash
    flow of the fills of that call and by nothing else; a call made in
    position leaves [entry_price], [call_strike] and [put_strike] as they
    were; and after any replay from a fresh simulator the strategy's [pnl]
    is the cash flow of all the fills of the run, over all positions. *)
Theorem pnl_accumulates_over_run :
  (forall env config self row self',
     onMarketData env config self row = Ok self' ->
     exists fills,
       trades self' = trades self ++ fills /\
       (pnl (strategy self') == pnl (strategy self) + realized fills)%Q) /\
  (forall env config self row self',
     in_position (strategy self) = true ->
     onMarketData env config self row = Ok self' ->
     entry_price (strategy self') = entry_price (strategy self) /\
     call_strike (strategy self') = call_strike (strategy self) /\
     put_strike (strategy self') = put_strike (strategy self)) /\
  (forall env config ticks self',
     replay env config Simulator_init ticks = Ok self' ->
     (pnl (strategy self') == realized (trades self'))%Q).
Proof.
  split; [|split].
  - intros env config self row self' Hrun.
    by apply onMarketData_evolves, evolves_pnl in Hrun.
  - intros env config self row self' Hin. unfold onMarketData.
    rewrite entry_block_in_position by done.
    simpl. unfold exit_block. rewrite Hin.
    destruct (exit_condition self) as [[]|]; simpl; intros; by simplify_eq.
  - intros env config ticks self' Hrun.
    eapply (replay_invariant pnl_is_realized); [| |exact Hrun].
    + intros. by eapply on_row_pnl_is_realized.
    + by vm_compute.
Qed.

Lemma pnl_accumulates_over_run_witness :
  exists self',
    replay example_env example_config Simulator_init
      [mkTick 1704114000 50050 "BTCUSDT"] = Ok self' /\
    in_position (strategy self') = false /\
    (pnl (strategy self') == realized (trades self'))%Q /\
    ~ (pnl (strategy self') == 0)%Q.
Proof.
  destruct (replay example_env example_config Simulator_init
              [mkTick 1704114000 50050 "BTCUSDT"]) as [self'|e] eqn:E;
    [|vm_compute in E; discriminate].
  exists self'. split; [reflexivity|].
  pose proof (proj2 (proj2 pnl_accumulates_over_run) _ _ _ _ E) as Hacc.
  vm_compute in E. injection E as <-.
  split; [reflexivity|]. split; [exact Hacc|]. vm_compute. discriminate.
Defined.

(** ** The simulation *)

#[global] Instance ts_le_total : Total ts_le.
Proof. intros a b. unfold ts_le. lia. Qed.

Lemma load_columns env date symbol d :
  d ∈ load env date symbol -> columns d = ["timestamp"; "close"; "Symbol"].
Proof.
  unfold load. destruct (files env _); [|by intros ?%elem_of_nil].
  by intros ->%list_elem_of_singleton.
Qed.

Lemma data_frames_columns env config d :
  d ∈ data_frames env config -> columns d = ["timestamp"; "close"; "Symbol"].
Proof.
  unfold data_frames. intros (date & (symbol & Hd & _)%list_elem_of_bind & _)%list_elem_of_bind.
  by eapply load_columns.
Qed.

Lemma readData_no_frames env config self :
  data_frames env config = [] ->
  readData env config self = Raise (KeyError "timestamp").
Proof. unfold readData. by intros ->. Qed.

Lemma readData_frames env config self :
  data_frames env config <> [] ->
  readData env config self =
  Ok (set_df (Some (mkFrame (remove_dups (mjoin (columns <$> data_frames env config)))
                            (sorted_feed env config))) self).
Proof.
  intros Hne. unfold readData, sorted_feed, feed.
  destruct (data_frames env config) as [|d frames] eqn:E; [done|].
  unfold sort_values_timestamp, pd_concat. cbn [columns rows].
  rewrite decide_True; [done|].
  apply elem_of_remove_dups, list_elem_of_join.
  exists (columns d). split; [|apply list_elem_of_fmap; exists d; split; [done|left]].
  rewrite (data_frames_columns env config d); [left|].
  rewrite E. left.
Qed.

Lemma list_bind_nil {A B : Type} (f : A -> list B) (l : list A) :
  (forall x, f x = []) -> l ≫= f = [].
Proof.
  intros Hf. induction l as [|x l IH]; [done|].
  cbn [mbind list_bind]. fold (l ≫= f). by rewrite Hf, IH.
Qed.

Lemma data_frames_no_files env config :
  (forall path, files env path = None) -> data_frames env config = [].
Proof.
  intros Hnone. unfold data_frames.
  apply list_bind_nil. intros date. apply list_bind_nil. intros symbol.
  unfold load. by rewrite Hnone.
Qed.

(** *** Empty feed *)

(** C4 (what the source does).  When no data file exists, [readData]
    builds [pd.DataFrame()], a frame without columns, and sorting it by
    [timestamp] raises [KeyError]: the script stops before
    [startSimulation], and writes no output. *)
Theorem main_without_files_raises env config :
  (forall path, files env path = None) ->
  main env config = Raise (KeyError "timestamp").
Proof.
  intros Hnone. unfold main.
  by rewrite readData_no_frames by by apply data_frames_no_files.
Qed.

Lemma main_without_files_raises_witness :
  main example_env example_config = Raise (KeyError "timestamp").
Proof. apply main_without_files_raises. reflexivity. Defined.

(** The replay loop itself accepts a frame without rows: the series is
    empty and the ledger untouched. *)
Lemma startSimulation_no_rows env config cols :
  startSimulation env config (set_df (Some (mkFrame cols [])) Simulator_init)
  = Ok (set_df (Some (mkFrame cols [])) Simulator_init, []).
Proof. reflexivity. Qed.

(** *** One entry per tick, in the order of the timestamps *)

Lemma on_row_log env config self row self' :
  on_row env config self row = Ok self' ->
  (pnl_log self').*1 = (pnl_log self).*1 ++ [timestamp row].
Proof.
  intros (self2 & Hmd & ->)%on_row_inv.
  apply onMarketData_evolves, evolves_frame in Hmd as (Hlog & _).
  simpl. by rewrite fmap_app, Hlog.
Qed.

Lemma replay_log env config ticks : forall self self',
  replay env config self ticks = Ok self' ->
  (pnl_log self').*1 = (pnl_log self).*1 ++ (timestamp <$> ticks).
Proof.
  induction ticks as [|row ticks IH]; intros self self' Hrun; simpl in Hrun.
  - simplify_eq. by rewrite app_nil_r.
  - destruct (on_row env config self row) as [self1|] eqn:E; [|done].
    simpl in Hrun. apply IH in Hrun. apply on_row_log in E.
    by rewrite Hrun, E, <- app_assoc.
Qed.

Lemma exit_block_total self row :
  entry_price_usable self ->
  exists self', exit_block self row = Ok self' /\ entry_price_usable self'.
Proof.
  intros Husable.
  destruct (in_position (strategy self)) eqn:Hin;
    [|exists self; by rewrite exit_block_flat].
  destruct (Husable Hin) as (entry & He & Hnz).
  destruct (exit_condition_spec self entry He Hnz) as ([] & Hc & _).
  - destruct (exit_block_leaves self row Hin Hc) as (self' & Hx & _ & Hflat).
    exists self'. split; [done|]. intros ?. congruence.
  - exists self. split; [by apply exit_block_stays|done].
Qed.

Lemma entry_block_total env config self row :
  ~ (close row == 0)%Q ->
  entry_price_usable self ->
  exists f, entry_block env config self row = Ok f /\
    entry_price_usable (flow_state f) /\
    (forall self', f = Return self' -> in_position (strategy self') = false).
Proof.
  intros Hnz Husable. unfold entry_block.
  destruct (in_position (strategy self)) eqn:Hin; simpl negb; cbn [andb];
    [eexists; split; [reflexivity|]; split; [done|]; intros; simplify_eq|].
  destruct (contains "BTCUSDT" (Symbol row));
    [|eexists; split; [reflexivity|]; split; [done|]; intros; simplify_eq].
  destruct ((hour env (timestamp row) =? 13) && (minute env (timestamp row) =? 0));
    [|eexists; split; [reflexivity|]; split; [done|]; intros; simplify_eq].
  case_decide as Hexp.
  { eexists; split; [reflexivity|]. split.
    - intros Hin'. simpl in Hin'. congruence.
    - intros ? [= <-]. done. }
  destruct (sorted (expiries config)) as [|expiry rest] eqn:Hs;
    [by apply sorted_nil in Hs|].
  match goal with |- context [if ?b then _ else _] => destruct b end.
  - eexists; split; [reflexivity|]. split; [|intros; simplify_eq].
    intros _. exists (close row). by split.
  - eexists; split; [reflexivity|]. split; [|intros; simplify_eq].
    intros Hin'. simpl in Hin'. congruence.
Qed.

Lemma onMarketData_total env config self row :
  ~ (close row == 0)%Q ->
  entry_price_usable self ->
  exists self', onMarketData env config self row = Ok self' /\
    entry_price_usable self'.
Proof.
  intros Hnz Husable. unfold onMarketData.
  destruct (entry_block_total env config self row Hnz Husable)
    as (f & -> & Hf & Hret).
  simpl. destruct f as [self1|self1].
  - exists self1. split; [done|]. intros Hin. by rewrite (Hret self1) in Hin.
  - by apply exit_block_total.
Qed.

Lemma replay_total env config ticks : forall self,
  Forall (fun row => ~ (close row == 0)%Q) ticks ->
  entry_price_usable self ->
  exists self', replay env config self ticks = Ok self'.
Proof.
  induction ticks as [|row ticks IH]; intros self Hall Husable;
    [by eexists|].
  inversion_clear Hall as [|? ? Hnz Hrest]. simpl. unfold on_row.
  destruct (onMarketData_total env config
              (set_currentPrice (<[Some (Symbol row) := close row]> (currentPrice self)) self)
              row Hnz Husable) as (self2 & -> & Husable2).
  simpl. by apply IH.
Qed.

Lemma main_inv env config self out :
  main env config = Ok (self, out) ->
  data_frames env config <> [] /\
  exists d,
    replay env config (set_df (Some d) Simulator_init) (sorted_feed env config)
      = Ok self /\
    out = pnl_log self.
Proof.
  unfold main. intros Hmain.
  destruct (decide (data_frames env config = [])) as [Hnil|Hne].
  { by rewrite readData_no_frames in Hmain. }
  split; [done|]. rewrite readData_frames in Hmain by done.
  simpl in Hmain. unfold startSimulation in Hmain. simpl in Hmain.
  destruct (replay _ _ _ _) as [self1|] eqn:E; simplify_eq/=.
  eexists. by split.
Qed.



(** *** Replay is a function of the ticks and the configuration *)

Lemma list_bind_ext_in {A B : Type} (f g : A -> list B) (l : list A) :
  (forall x, x ∈ l -> f x = g x) -> l ≫= f = l ≫= g.
Proof.
  induction l as [|x l IH]; intros Hfg; [done|].
  cbn [mbind list_bind]. fold (l ≫= f). fold (l ≫= g).
  rewrite (Hfg x) by left. rewrite IH; [done|].
  intros y Hy. apply Hfg. by right.
Qed.

Lemma onMarketData_ext env1 env2 config self row :
  (forall time, utcoffset env1 time = utcoffset env2 time) ->
  onMarketData env1 config self row = onMarketData env2 config self row.
Proof.
  intros Htz. unfold onMarketData, entry_block, hour, minute.
  by rewrite Htz.
Qed.

Lemma replay_ext env1 env2 config ticks : forall self,
  (forall time, utcoffset env1 time = utcoffset env2 time) ->
  replay env1 config self ticks = replay env2 config self ticks.
Proof.
  induction ticks as [|row ticks IH]; intros self Htz; [done|].
  simpl. unfold on_row. rewrite (onMarketData_ext env1 env2) by done.
  destruct (onMarketData env2 config _ row); simpl; [by apply IH|done].
Qed.



(** *** The ledger during a replay *)

Lemma on_row_ledger_conserved env config self row self' :
  ledger_conserved self -> on_row env config self row = Ok self' ->
  ledger_conserved self'.
Proof.
  intros Hl (self2 & Hmd & ->)%on_row_inv.
  apply onMarketData_evolves in Hmd.
  by apply (evolves_ledger _ _ Hmd).
Qed.

(** The conservation of C1 holds at every point of a replay: the orders of
    the strategy reach the ledger through [onOrder] only. *)
Lemma replay_ledger_conserved env config ticks self' :
  replay env config Simulator_init ticks = Ok self' -> ledger_conserved self'.
Proof.
  intros Hrun.
  eapply (replay_invariant ledger_conserved); [| |exact Hrun].
  - intros. by eapply on_row_ledger_conserved.
  - intros sym p. by vm_compute.
Qed.
